(** * qf-lib: the backtest position ledger

    A shallow embedding of
    [qf_lib/backtesting/portfolio/backtest_position.py] (class
    [BacktestPosition]) and the properties of it that the specification
    states.

    Numbers.  In the first embedding Python's [int] and [float] values
    are modelled by exact rationals ([Q]); every numeric comparison of
    the source ([==], [>], [<]) is the corresponding comparison of
    rationals, so numeric results are stated up to [Qeq] ([==]).  It
    carries the statements about the state machine, the share count and
    the checks.  The profit that the class accumulates in binary floating
    point is stated on a second embedding, [FloatLedger], with Python's
    ints as integers and its floats as binary64 numbers.

    Effects.  The two mutating methods, [transact_transaction] and
    [update_price], are written in a small state-and-exception monad over
    the position object: a computation takes the object and returns the
    object as the call leaves it, together with either the raised error
    or the returned value.  A failed [assert] therefore leaves behind
    whatever had been mutated before it, exactly as in Python. *)

From Stdlib Require Import QArith Qabs ZArith List Bool Lia Lqa String.
From Stdlib Require PrimFloat FloatOps SpecFloat.
Import ListNotations.

Open Scope Q_scope.

(** ** Numeric helpers *)

Module Numeric.

(** [numpy.sign]: -1, 0 or 1 according to the sign of the argument. *)
Definition sign (x : Q) : Z := Z.sgn (Qnum x).

(** Python's [x < y] on numbers. *)
Definition Qltb (x y : Q) : bool := negb (Qle_bool y x).

End Numeric.

Import Numeric.

(** ** Errors

    Every precondition of the source is an [assert]; the four error kinds
    of the specification name the assertion that failed:
    - [InvalidStateError]: "The position has already been closed";
    - [DirectionViolationError]: "Transaction cannot change the direction
      of the position. ...";
    - [ContractMismatchError]: "Contract of Transaction has to match the
      Contract of a Position";
    - [InvalidTransactionError]: "`Transaction.quantity` shouldn't be 0"
      and "Transaction.price must be positive. ...". *)

Inductive Error : Type :=
| InvalidStateError
| ContractMismatchError
| InvalidTransactionError
| DirectionViolationError.

(** Python's [==] on the objects of a class, as a decidable equality. *)
Class EqDec (A : Type) : Type :=
  eq_dec : forall a b : A, {a = b} + {a <> b}.

Section Ledger.

(** [Contract] is an external class; the position only compares two
    contracts with [==]. *)
Context {Contract : Type} `{EqDec Contract}.

(** Modelled from the spec: the class [Transaction]
    ([qf_lib.backtesting.transaction]) is not part of the sources; the
    position reads the four attributes below. *)
Record Transaction : Type := mkTransaction {
  contract : Contract;
  quantity : Q;
  price : Q;
  commission : Q
}.

(** The attributes set by [BacktestPosition.__init__]. *)
Record BacktestPosition : Type := mkPosition {
  _contract : Contract;
  is_closed : bool;
  transactions : list Transaction;
  number_of_shares : Q;
  current_price : Q;
  direction : Z
}.

Definition __init__ (c : Contract) : BacktestPosition :=
  {| _contract := c;
     is_closed := false;
     transactions := [];
     number_of_shares := 0;
     current_price := 0;
     direction := 0%Z |}.

(** Attribute assignments. *)
Definition set_is_closed (b : bool) (self : BacktestPosition) :=
  {| _contract := _contract self; is_closed := b;
     transactions := transactions self;
     number_of_shares := number_of_shares self;
     current_price := current_price self; direction := direction self |}.

Definition set_transactions (l : list Transaction) (self : BacktestPosition) :=
  {| _contract := _contract self; is_closed := is_closed self;
     transactions := l;
     number_of_shares := number_of_shares self;
     current_price := current_price self; direction := direction self |}.

Definition set_number_of_shares (n : Q) (self : BacktestPosition) :=
  {| _contract := _contract self; is_closed := is_closed self;
     transactions := transactions self;
     number_of_shares := n;
     current_price := current_price self; direction := direction self |}.

Definition set_current_price (p : Q) (self : BacktestPosition) :=
  {| _contract := _contract self; is_closed := is_closed self;
     transactions := transactions self;
     number_of_shares := number_of_shares self;
     current_price := p; direction := direction self |}.

Definition set_direction (d : Z) (self : BacktestPosition) :=
  {| _contract := _contract self; is_closed := is_closed self;
     transactions := transactions self;
     number_of_shares := number_of_shares self;
     current_price := current_price self; direction := d |}.

(** *** The method monad *)

Definition M (A : Type) : Type :=
  BacktestPosition -> BacktestPosition * (Error + A).

Definition ret {A : Type} (a : A) : M A := fun self => (self, inr a).

Definition bind {A B : Type} (m : M A) (k : A -> M B) : M B :=
  fun self =>
    match m self with
    | (self', inl e) => (self', inl e)
    | (self', inr a) => k a self'
    end.

Definition raise {A : Type} (e : Error) : M A := fun self => (self, inl e).

Definition get : M BacktestPosition := fun self => (self, inr self).

Definition modify (f : BacktestPosition -> BacktestPosition) : M unit :=
  fun self => (f self, inr tt).

(** [assert cond, msg] *)
Definition assert_ (cond : bool) (e : Error) : M unit :=
  if cond then ret tt else raise e.

(** [if cond: body] *)
Definition when (cond : bool) (body : M unit) : M unit :=
  if cond then body else ret tt.

Notation "x <- m ;; k" := (bind m (fun x => k))
  (at level 61, m at next level, right associativity).
Notation "m ;; k" := (bind m (fun _ => k))
  (at level 61, right associativity).

(** *** Read-only methods *)

Definition market_value (self : BacktestPosition) : Q :=
  number_of_shares self * current_price self.

Definition cost_basis (self : BacktestPosition) : Q :=
  if Qeq_bool (number_of_shares self) 0 then 0
  else
    fold_left
      (fun result transaction =>
         result + price transaction * quantity transaction
         + commission transaction)
      (transactions self) 0.


(** The loop of [avg_cost_per_share]: the pair [(cost, shares)]. *)
Definition avg_cost_loop (self : BacktestPosition) : Q * Q :=
  fold_left
    (fun '(cost, shares) transaction =>
       if (sign (quantity transaction) =? direction self)%Z
       then (cost + price transaction * quantity transaction
             + commission transaction,
             shares + quantity transaction)
       else (cost, shares))
    (transactions self) (0, 0).

Definition avg_cost_per_share (self : BacktestPosition) : Q :=
  let '(cost, shares) := avg_cost_loop self in
  if Qeq_bool shares 0 then 0 else cost / shares.

Definition unrealised_pnl (self : BacktestPosition) : Q :=
  market_value self - cost_basis self.

Definition _calculate_cost_of_transaction (transaction : Transaction) : Q :=
  price transaction * quantity transaction + commission transaction.

(** *** Checks and mutating methods *)

Definition _check_if_open : M unit :=
  self <- get ;;
  assert_ (negb (is_closed self)) InvalidStateError.

Definition _check_if_direction_does_not_change
           (transaction : Transaction) : M unit :=
  self <- get ;;
  let sign_after_transaction :=
    sign (number_of_shares self + quantity transaction) in
  let change := Z.abs (sign_after_transaction - direction self) in
  assert_ (change <? 2)%Z DirectionViolationError.

Definition transact_transaction (transaction : Transaction) : M Q :=
  _check_if_open ;;
  _check_if_direction_does_not_change transaction ;;
  self <- get ;;
  assert_ (if eq_dec (contract transaction) (_contract self)
           then true else false) ContractMismatchError ;;
  assert_ (negb (Qeq_bool (quantity transaction) 0))
          InvalidTransactionError ;;
  assert_ (Qltb 0 (price transaction)) InvalidTransactionError ;;
  self <- get ;;
  when (match transactions self with [] => true | _ => false end)
       (modify (set_direction (sign (quantity transaction)))) ;;
  modify (fun self =>
            set_transactions (transactions self ++ [transaction]) self) ;;
  modify (fun self =>
            set_number_of_shares
              (number_of_shares self + quantity transaction) self) ;;
  self <- get ;;
  when (Qeq_bool (number_of_shares self) 0) (modify (set_is_closed true)) ;;
  ret (_calculate_cost_of_transaction transaction).

Definition update_price (bid_price ask_price : Q) : M unit :=
  _check_if_open ;;
  self <- get ;;
  if Qltb 0 (number_of_shares self)
  then modify (set_current_price bid_price)
  else if Qltb (number_of_shares self) 0
       then modify (set_current_price ask_price)
       else ret tt.

(** *** Histories of calls *)

Inductive Call : Type :=
| Transact (transaction : Transaction)
| UpdatePrice (bid_price ask_price : Q).

Definition call (c : Call) : M unit :=
  match c with
  | Transact transaction => transact_transaction transaction ;; ret tt
  | UpdatePrice bid_price ask_price => update_price bid_price ask_price
  end.

(** The object as a call leaves it, and what the call raised or
    returned. *)
Definition after {A : Type} (m : M A) (self : BacktestPosition)
  : BacktestPosition := fst (m self).

Definition outcome {A : Type} (m : M A) (self : BacktestPosition)
  : Error + A := snd (m self).

Definition failed {A : Type} (o : Error + A) : bool :=
  match o with inl _ => true | inr _ => false end.

(** The caller goes on with the same object whether a call raised or
    not. *)
Fixpoint run (calls : list Call) (self : BacktestPosition)
  : BacktestPosition :=
  match calls with
  | [] => self
  | c :: rest => run rest (after (call c) self)
  end.

(** No [update_price] call of the history returned normally. *)
Fixpoint price_never_updated (calls : list Call) (self : BacktestPosition)
  : bool :=
  match calls with
  | [] => true
  | c :: rest =>
      match c with
      | Transact _ => true
      | UpdatePrice bid_price ask_price =>
          failed (outcome (update_price bid_price ask_price) self)
      end
      && price_never_updated rest (after (call c) self)
  end.

(** The states a position can be in: a fresh object, and whatever a
    method call leaves behind. *)
Inductive reachable : BacktestPosition -> Prop :=
| reachable_init (c : Contract) : reachable (__init__ c)
| reachable_call (c : Call) (self : BacktestPosition) :
    reachable self -> reachable (after (call c) self).

(** *** Quantities the specification speaks of *)

Definition sum_quantities (l : list Transaction) : Q :=
  fold_right Qplus 0 (map quantity l).

(** The mutations of an accepted [transact_transaction] call, in the
    order of the source: direction, log, share count, closing. *)
Definition record_transaction (transaction : Transaction)
           (self : BacktestPosition) : BacktestPosition :=
  let s1 := match transactions self with
            | [] => set_direction (sign (quantity transaction)) self
            | _ :: _ => self
            end in
  let s2 := set_transactions (transactions s1 ++ [transaction]) s1 in
  let s3 := set_number_of_shares
              (number_of_shares s2 + quantity transaction) s2 in
  if Qeq_bool (number_of_shares s3) 0 then set_is_closed true s3 else s3.

(** A transaction that would take the share count from one strict sign
    directly to the opposite strict sign. *)
Definition flips_sign (self : BacktestPosition) (transaction : Transaction)
  : Prop :=
  (0 < number_of_shares self
   /\ number_of_shares self + quantity transaction < 0)
  \/ (number_of_shares self < 0
      /\ 0 < number_of_shares self + quantity transaction).

(** What every reachable position satisfies. *)
Record consistent (self : BacktestPosition) : Prop := mkConsistent {
  inv_sum :
    number_of_shares self == sum_quantities (transactions self);
  inv_closed :
    is_closed self = true <->
    (number_of_shares self == 0 /\ transactions self <> []);
  inv_undefined :
    transactions self = [] -> direction self = 0%Z;
  inv_defined :
    transactions self <> [] ->
    direction self = 1%Z \/ direction self = (-1)%Z;
  inv_sign :
    transactions self <> [] -> is_closed self = false ->
    sign (number_of_shares self) = direction self;
  inv_recorded :
    Forall (fun transaction =>
              ~ quantity transaction == 0
              /\ 0 < price transaction
              /\ contract transaction = _contract self)
           (transactions self)
}.

End Ledger.

(** ** A concrete instrument and the specification's example *)

#[export] Instance string_EqDec : EqDec string := string_dec.

Module Example.

Definition ACME : string := "ACME"%string.
Definition OTHER : string := "OTHER"%string.

(** buy 10 shares at 100, commission 1 *)
Definition buy_10 : Transaction := mkTransaction ACME 10 100 1.
(** sell 4 shares at 110, commission 1 *)
Definition sell_4 : Transaction := mkTransaction ACME (-4) 110 1.
(** sell the remaining 6 shares at 108, commission 1 *)
Definition sell_6 : Transaction := mkTransaction ACME (-6) 108 1.

Definition opened : BacktestPosition :=
  run [Transact buy_10] (__init__ ACME).
Definition reduced : BacktestPosition :=
  run [Transact buy_10; Transact sell_4] (__init__ ACME).
Definition closed : BacktestPosition :=
  run [Transact buy_10; Transact sell_4; Transact sell_6] (__init__ ACME).

(** a long position of 5 shares *)
Definition long_5 : BacktestPosition :=
  run [Transact (mkTransaction ACME 5 20 0)] (__init__ ACME).

(** the sale that would take [long_5] from +5 to -3 *)
Definition sell_8 : Transaction := mkTransaction ACME (-8) 20 0.
(** the sale that closes [long_5], and a purchase that extends it *)
Definition sell_5 : Transaction := mkTransaction ACME (-5) 20 0.
Definition buy_3 : Transaction := mkTransaction ACME 3 20 0.
(** the same sale on another contract *)
Definition sell_8_other : Transaction := mkTransaction OTHER (-8) 20 0.
(** a sale of 2 shares on another contract *)
Definition sell_2_other : Transaction := mkTransaction OTHER (-2) 20 0.

(** one share sold at 1 with a commission of 5 *)
Definition costly_sell : Transaction := mkTransaction ACME (-1) 1 5.
(** one share bought at 1 with a commission of -2 *)
Definition rebated_buy : Transaction := mkTransaction ACME 1 1 (-2).

Definition short_1 : BacktestPosition :=
  run [Transact costly_sell] (__init__ ACME).
Definition long_1 : BacktestPosition :=
  run [Transact rebated_buy] (__init__ ACME).

End Example.

(** ** Further methods and quantities of the position *)

Section Accounting.

Context {Contract : Type} `{EqDec Contract}.

(** [BacktestPosition.contract()] *)
Definition contract_ (self : @BacktestPosition Contract) : Contract :=
  _contract self.



(** The transactions of a history whose [transact_transaction] call
    returned normally, in the order of the calls. *)
Fixpoint accepted (calls : list Call) (self : @BacktestPosition Contract)
  : list Transaction :=
  match calls with
  | [] => []
  | c :: rest =>
      match c with
      | Transact transaction =>
          if failed (outcome (transact_transaction transaction) self)
          then []
          else [transaction]
      | UpdatePrice _ _ => []
      end
      ++ accepted rest (after (call c) self)
  end.

(** [self'] has the attributes of [self], [current_price] apart. *)
Definition only_price_differs (self self' : @BacktestPosition Contract)
  : Prop :=
  _contract self' = _contract self
  /\ is_closed self' = is_closed self
  /\ transactions self' = transactions self
  /\ number_of_shares self' = number_of_shares self
  /\ direction self' = direction self.

(** The bid and ask prices passed to the [update_price] calls of a
    history. *)
Definition quotes (calls : list (@Call Contract)) : list Q :=
  flat_map (fun c => match c with
                     | Transact _ => []
                     | UpdatePrice bid_price ask_price =>
                         [bid_price; ask_price]
                     end) calls.

End Accounting.

(** ** The volatility forecast

    [qf_lib/common/utils/volatility/volatility_forecast.py], class
    [VolatilityForecast].  The class drives the external packages [arch]
    and [pandas]; what it calls there is an interface of operations that
    may raise. *)

Module Volatility.

(** The operations of the external libraries that the class uses.
    [arch_forecast] stands for the body of [_calculate_single_value]
    (build the model with [_get_ARCH_model], [fit], [forecast], take the
    last value for the horizon and its root), a function of the
    volatility process, the method, the horizon and the returns. *)
Class Library : Type := {
  Series : Type;
  Scalar : Type;
  VolatilityProcess : Type;
  Method : Type;
  Frequency : Type;
  LibraryError : Type;
  to_log_returns : Series -> LibraryError + Series;
  times : Series -> Z -> Series;
  rolling_window :
    Series -> option nat -> (Series -> LibraryError + Scalar) ->
    LibraryError + Series;
  dropna : Series -> Series;
  series_div : Series -> Z -> Series;
  scalar_div : Scalar -> Z -> Scalar;
  annualise_series : Series -> option Frequency -> LibraryError + Series;
  annualise_scalar : Scalar -> option Frequency -> LibraryError + Scalar;
  arch_forecast :
    VolatilityProcess -> Method -> Z -> Series -> LibraryError + Scalar
}.

Section Forecast.

Context `{Library}.

(** What a call can raise: the four assertions of the class, or whatever
    a library call raised. *)
Inductive Failure : Type :=
| InconsistentConfiguration
| AlreadyCalculated
| WindowNotSpecified
| BadMultiplier
| Raised (e : LibraryError).

(** A forecast is a series ([calculate_timeseries]) or a number
    ([calculate_single_forecast]). *)
Inductive Forecast : Type :=
| SeriesForecast (s : Series)
| SingleForecast (x : Scalar).

Record VolatilityForecast : Type := mkForecast {
  vol_process : VolatilityProcess;
  method : Method;
  horizon : Z;
  window_len : option nat;
  annualise : bool;
  frequency : option Frequency;
  returns_tms : Series;
  forecasted_volatility : option Forecast
}.

Definition __init__ (returns : Series) (process : VolatilityProcess)
           (how : Method) (h : Z) (annualised : bool)
           (freq : option Frequency) : Failure + VolatilityForecast :=
  if negb annualised
     || match freq with Some _ => true | None => false end
  then
    match to_log_returns returns with
    | inl e => inl (Raised e)
    | inr log_returns =>
        inr {| vol_process := process;
               method := how;
               horizon := h;
               window_len := None;
               annualise := annualised;
               frequency := freq;
               returns_tms := log_returns;
               forecasted_volatility := None |}
    end
  else inl InconsistentConfiguration.

Definition set_forecasted_volatility (v : option Forecast)
           (self : VolatilityForecast) : VolatilityForecast :=
  {| vol_process := vol_process self;
     method := method self;
     horizon := horizon self;
     window_len := window_len self;
     annualise := annualise self;
     frequency := frequency self;
     returns_tms := returns_tms self;
     forecasted_volatility := v |}.

Definition _calculate_single_value (self : VolatilityForecast)
           (returns : Series) : LibraryError + Scalar :=
  arch_forecast (vol_process self) (method self) (horizon self) returns.

(** The argument [window_len_arg] is the parameter [window_len] of the
    source; [window_len self] is the attribute [self.window_len]. *)
Definition calculate_timeseries (window_len_arg : option nat)
           (multiplier : Z) (self : VolatilityForecast)
  : VolatilityForecast * (Failure + Forecast) :=
  match forecasted_volatility self with
  | Some _ => (self, inl AlreadyCalculated)
  | None =>
      match window_len_arg with
      | None => (self, inl WindowNotSpecified)
      | Some _ =>
          if (1 <=? multiplier)%Z
          then
            let returns := times (returns_tms self) multiplier in
            match rolling_window returns (window_len self)
                                 (_calculate_single_value self) with
            | inl e => (self, inl (Raised e))
            | inr volatility_tms =>
                let volatility_tms := dropna volatility_tms in
                let volatility_tms :=
                  series_div volatility_tms multiplier in
                match (if annualise self
                       then annualise_series volatility_tms
                                             (frequency self)
                       else inr volatility_tms) with
                | inl e => (self, inl (Raised e))
                | inr volatility_tms =>
                    (set_forecasted_volatility
                       (Some (SeriesForecast volatility_tms)) self,
                     inr (SeriesForecast volatility_tms))
                end
            end
          else (self, inl BadMultiplier)
      end
  end.

Definition calculate_single_forecast (multiplier : Z)
           (self : VolatilityForecast)
  : VolatilityForecast * (Failure + Forecast) :=
  match forecasted_volatility self with
  | Some _ => (self, inl AlreadyCalculated)
  | None =>
      if (1 <=? multiplier)%Z
      then
        let returns := times (returns_tms self) multiplier in
        match _calculate_single_value self returns with
        | inl e => (self, inl (Raised e))
        | inr volatility =>
            let volatility := scalar_div volatility multiplier in
            match (if annualise self
                   then annualise_scalar volatility (frequency self)
                   else inr volatility) with
            | inl e => (self, inl (Raised e))
            | inr volatility =>
                (set_forecasted_volatility
                   (Some (SingleForecast volatility)) self,
                 inr (SingleForecast volatility))
            end
        end
      else (self, inl BadMultiplier)
  end.

(** *** Histories of calculation calls *)

Inductive Calculation : Type :=
| CalculateTimeseries (window_len_arg : option nat) (multiplier : Z)
| CalculateSingleForecast (multiplier : Z).

Definition calculate (c : Calculation) (self : VolatilityForecast)
  : VolatilityForecast * (Failure + Forecast) :=
  match c with
  | CalculateTimeseries w m => calculate_timeseries w m self
  | CalculateSingleForecast m => calculate_single_forecast m self
  end.

Fixpoint run (calls : list Calculation) (self : VolatilityForecast)
  : VolatilityForecast :=
  match calls with
  | [] => self
  | c :: rest => run rest (fst (calculate c self))
  end.

(** The forecasts returned by the calls of a history that returned
    normally, in order. *)
Fixpoint returned (calls : list Calculation) (self : VolatilityForecast)
  : list Forecast :=
  match calls with
  | [] => []
  | c :: rest =>
      match snd (calculate c self) with
      | inl _ => []
      | inr v => [v]
      end
      ++ returned rest (fst (calculate c self))
  end.

End Forecast.

(** A small library, to run the class on: series are lists of
    rationals, a forecast over a window is the mean of the absolute
    values, and a window length is required. *)
Definition mean_abs (l : list Q) : Q :=
  fold_right Qplus 0 (map Qabs l) / inject_Z (Z.of_nat (List.length l)).

Definition toy_library : Library := {|
  Series := list Q;
  Scalar := Q;
  VolatilityProcess := unit;
  Method := unit;
  Frequency := Z;
  LibraryError := string;
  to_log_returns := fun s => inr s;
  times := fun s m => map (fun x => x * inject_Z m) s;
  rolling_window := fun s w f =>
    match w with
    | None => inl "window must be an integer"%string
    | Some n =>
        match f (firstn n s) with
        | inl e => inl e
        | inr x => inr [x]
        end
    end;
  dropna := fun s => s;
  series_div := fun s m => map (fun x => x / inject_Z m) s;
  scalar_div := fun x m => x / inject_Z m;
  annualise_series := fun s _ => inr s;
  annualise_scalar := fun x _ => inr x;
  arch_forecast := fun _ _ _ s =>
    match s with
    | [] => inl "no observations"%string
    | _ :: _ => inr (mean_abs s)
    end
|}.

End Volatility.

(** ** The position in Python's number types

    The profit figures of the class are accumulated in binary floating
    point ([cost = 0.0], [pnl = 0.0], [cost / shares]).  This second
    embedding of the class keeps the number types of the source: share
    counts and the direction are Python ints ([number_of_shares = 0  #
    type: int], [direction = 0  # type: int]), hence integers of any
    size; prices, commissions and the profit figures are Python floats
    ([current_price = 0.0  # type: float]), hence IEEE 754 binary64
    numbers with the operations of the kernel's primitive floats. *)

Module FloatLedger.

Import PrimFloat FloatOps SpecFloat.

#[local] Set Warnings "-inexact-float".

(** Python's [float(n)] for an int [n], as it is applied when an int
    meets a float in [*], [/] or [-]: the binary64 number nearest to
    [n], ties to even.  (Beyond the range of binary64 Python raises
    [OverflowError]; here the result is an infinity.) *)
Definition float_of_int (z : Z) : float :=
  SF2Prim (binary_normalize prec emax z 0 false).

Section Ledger.

Context {Contract : Type} `{EqDec Contract}.

(** Modelled from the spec: the class [Transaction] is not part of the
    sources; the quantity is a number of shares. *)
Record Transaction : Type := mkTransaction {
  contract : Contract;
  quantity : Z;
  price : float;
  commission : float
}.

Record BacktestPosition : Type := mkPosition {
  _contract : Contract;
  is_closed : bool;
  transactions : list Transaction;
  number_of_shares : Z;
  current_price : float;
  direction : Z
}.

Definition __init__ (c : Contract) : BacktestPosition :=
  {| _contract := c;
     is_closed := false;
     transactions := [];
     number_of_shares := 0%Z;
     current_price := 0%float;
     direction := 0%Z |}.

Definition set_is_closed (b : bool) (self : BacktestPosition) :=
  {| _contract := _contract self; is_closed := b;
     transactions := transactions self;
     number_of_shares := number_of_shares self;
     current_price := current_price self; direction := direction self |}.

Definition set_transactions (l : list Transaction) (self : BacktestPosition) :=
  {| _contract := _contract self; is_closed := is_closed self;
     transactions := l;
     number_of_shares := number_of_shares self;
     current_price := current_price self; direction := direction self |}.

Definition set_number_of_shares (n : Z) (self : BacktestPosition) :=
  {| _contract := _contract self; is_closed := is_closed self;
     transactions := transactions self;
     number_of_shares := n;
     current_price := current_price self; direction := direction self |}.

Definition set_current_price (p : float) (self : BacktestPosition) :=
  {| _contract := _contract self; is_closed := is_closed self;
     transactions := transactions self;
     number_of_shares := number_of_shares self;
     current_price := p; direction := direction self |}.

Definition set_direction (d : Z) (self : BacktestPosition) :=
  {| _contract := _contract self; is_closed := is_closed self;
     transactions := transactions self;
     number_of_shares := number_of_shares self;
     current_price := current_price self; direction := d |}.

(** The method monad, as for the first embedding. *)
Definition M (A : Type) : Type :=
  BacktestPosition -> BacktestPosition * (Error + A).

Definition ret {A : Type} (a : A) : M A := fun self => (self, inr a).

Definition bind {A B : Type} (m : M A) (k : A -> M B) : M B :=
  fun self =>
    match m self with
    | (self', inl e) => (self', inl e)
    | (self', inr a) => k a self'
    end.

Definition raise {A : Type} (e : Error) : M A := fun self => (self, inl e).

Definition get : M BacktestPosition := fun self => (self, inr self).

Definition modify (f : BacktestPosition -> BacktestPosition) : M unit :=
  fun self => (f self, inr tt).

Definition assert_ (cond : bool) (e : Error) : M unit :=
  if cond then ret tt else raise e.

Definition when (cond : bool) (body : M unit) : M unit :=
  if cond then body else ret tt.

Notation "x <- m ;; k" := (bind m (fun x => k))
  (at level 61, m at next level, right associativity).
Notation "m ;; k" := (bind m (fun _ => k))
  (at level 61, right associativity).

Definition _calculate_cost_of_transaction (transaction : Transaction)
  : float :=
  (price transaction * float_of_int (quantity transaction)
   + commission transaction)%float.

Definition _check_if_open : M unit :=
  self <- get ;;
  assert_ (negb (is_closed self)) InvalidStateError.

Definition _check_if_direction_does_not_change
           (transaction : Transaction) : M unit :=
  self <- get ;;
  let sign_after_transaction :=
    Z.sgn (number_of_shares self + quantity transaction) in
  let change := Z.abs (sign_after_transaction - direction self) in
  assert_ (change <? 2)%Z DirectionViolationError.

Definition transact_transaction (transaction : Transaction) : M float :=
  _check_if_open ;;
  _check_if_direction_does_not_change transaction ;;
  self <- get ;;
  assert_ (if eq_dec (contract transaction) (_contract self)
           then true else false) ContractMismatchError ;;
  assert_ (negb (quantity transaction =? 0)%Z) InvalidTransactionError ;;
  assert_ (0 <? price transaction)%float InvalidTransactionError ;;
  self <- get ;;
  when (match transactions self with [] => true | _ => false end)
       (modify (set_direction (Z.sgn (quantity transaction)))) ;;
  modify (fun self =>
            set_transactions (transactions self ++ [transaction]) self) ;;
  modify (fun self =>
            set_number_of_shares
              (number_of_shares self + quantity transaction)%Z self) ;;
  self <- get ;;
  when (number_of_shares self =? 0)%Z (modify (set_is_closed true)) ;;
  ret (_calculate_cost_of_transaction transaction).

Definition update_price (bid_price ask_price : float) : M unit :=
  _check_if_open ;;
  self <- get ;;
  if (0 <? number_of_shares self)%Z
  then modify (set_current_price bid_price)
  else if (number_of_shares self <? 0)%Z
       then modify (set_current_price ask_price)
       else ret tt.

(** The loop of [avg_cost_per_share]: [cost] is a float, [shares] an
    int. *)
Definition avg_cost_loop (self : BacktestPosition) : float * Z :=
  fold_left
    (fun '(cost, shares) transaction =>
       if (Z.sgn (quantity transaction) =? direction self)%Z
       then ((cost + price transaction
                     * float_of_int (quantity transaction)
              + commission transaction)%float,
             (shares + quantity transaction)%Z)
       else (cost, shares))
    (transactions self) (0%float, 0%Z).

(** [return 0] hands back the int 0, which enters the subtraction of
    [realized_pnl] as 0.0. *)
Definition avg_cost_per_share (self : BacktestPosition) : float :=
  let '(cost, shares) := avg_cost_loop self in
  if (shares =? 0)%Z then 0%float
  else (cost / float_of_int shares)%float.

Definition realized_pnl (self : BacktestPosition) : float :=
  let avg_cost_ps := avg_cost_per_share self in
  fold_left
    (fun pnl transaction =>
       if negb (Z.sgn (quantity transaction) =? direction self)%Z
       then
         let quantity := (- quantity transaction)%Z in
         (pnl + ((price transaction - avg_cost_ps) * float_of_int quantity
                 - commission transaction))%float
       else pnl)
    (transactions self) 0%float.

(** Histories of calls, as for the first embedding. *)
Inductive Call : Type :=
| Transact (transaction : Transaction)
| UpdatePrice (bid_price ask_price : float).

Definition call (c : Call) : M unit :=
  match c with
  | Transact transaction => transact_transaction transaction ;; ret tt
  | UpdatePrice bid_price ask_price => update_price bid_price ask_price
  end.

Fixpoint run (calls : list Call) (self : BacktestPosition)
  : BacktestPosition :=
  match calls with
  | [] => self
  | c :: rest => run rest (fst (call c self))
  end.

(** The mutations of an accepted [transact_transaction] call. *)
Definition record_transaction (transaction : Transaction)
           (self : BacktestPosition) : BacktestPosition :=
  let s1 := match transactions self with
            | [] => set_direction (Z.sgn (quantity transaction)) self
            | _ :: _ => self
            end in
  let s2 := set_transactions (transactions s1 ++ [transaction]) s1 in
  let s3 := set_number_of_shares
              (number_of_shares s2 + quantity transaction)%Z s2 in
  if (number_of_shares s3 =? 0)%Z then set_is_closed true s3 else s3.

(** The closing transactions as the specification selects them: those
    whose quantity has the sign opposite to the direction. *)
Definition closing_transactions (self : BacktestPosition)
  : list Transaction :=
  filter (fun transaction =>
            (Z.sgn (quantity transaction) =? - direction self)%Z)
         (transactions self).

(** Realized profit and loss in the specification's words: the sum over
    the closing transactions of
    [(price - avgCostPerShare) * (-quantity) - commission], added up in
    floating point from 0.0 in the order of the log. *)
Definition realized_pnl_spec (self : BacktestPosition) : float :=
  fold_left
    (fun pnl transaction =>
       (pnl + ((price transaction - avg_cost_per_share self)
               * float_of_int (- quantity transaction)
               - commission transaction))%float)
    (closing_transactions self) 0%float.

(** What the histories keep: recorded quantities are not zero, and the
    direction is 1 or -1 once a transaction is recorded. *)
Definition well_formed (self : BacktestPosition) : Prop :=
  Forall (fun transaction => quantity transaction <> 0%Z)
         (transactions self)
  /\ (transactions self <> [] ->
      direction self = 1%Z \/ direction self = (-1)%Z).

End Ledger.

(** The specification's example: 10 shares bought at 100 with a
    commission of 1, then 4 sold at 110 with a commission of 1. *)
Definition ACME : string := "ACME"%string.
Definition buy_10 : Transaction := mkTransaction ACME 10 100 1.
Definition sell_4 : Transaction := mkTransaction ACME (-4) 110 1.
Definition reduced : BacktestPosition :=
  run [Transact buy_10; Transact sell_4] (__init__ ACME).

End FloatLedger.

(** ** Facts about the numeric helpers *)

Lemma Qltb_lt (x y : Q) : Qltb x y = true <-> x < y.
Proof.
  unfold Qltb. rewrite negb_true_iff. split; intro H.
  - apply Qnot_le_lt. intro L. apply Qle_bool_iff in L. congruence.
  - destruct (Qle_bool y x) eqn:E; [|reflexivity].
    apply Qle_bool_iff in E. exfalso. exact (Qlt_not_le _ _ H E).
Qed.

Lemma Qltb_nlt (x y : Q) : Qltb x y = false <-> y <= x.
Proof.
  unfold Qltb. rewrite negb_false_iff. apply Qle_bool_iff.
Qed.

Lemma Qeq_bool_false (x y : Q) : Qeq_bool x y = false <-> ~ x == y.
Proof.
  split; intro H.
  - intro E. apply Qeq_bool_iff in E. congruence.
  - destruct (Qeq_bool x y) eqn:E; [|reflexivity].
    apply Qeq_bool_iff in E. contradiction.
Qed.

Lemma sign_pos (x : Q) : sign x = 1%Z <-> 0 < x.
Proof.
  unfold sign, Qlt. simpl. rewrite Z.sgn_pos_iff. lia.
Qed.

Lemma sign_neg (x : Q) : sign x = (-1)%Z <-> x < 0.
Proof.
  unfold sign, Qlt. simpl. rewrite Z.sgn_neg_iff. lia.
Qed.

Lemma sign_null (x : Q) : sign x = 0%Z <-> x == 0.
Proof.
  unfold sign, Qeq. simpl. rewrite Z.sgn_null_iff. lia.
Qed.

Lemma sign_range (x : Q) : sign x = 1%Z \/ sign x = 0%Z \/ sign x = (-1)%Z.
Proof.
  unfold sign. destruct (Qnum x); simpl; auto.
Qed.

Lemma sign_compat (x y : Q) : x == y -> sign x = sign y.
Proof.
  intro E. destruct (sign_range y) as [H | [H | H]]; rewrite H.
  - apply sign_pos. apply sign_pos in H. lra.
  - apply sign_null. apply sign_null in H. lra.
  - apply sign_neg. apply sign_neg in H. lra.
Qed.

Lemma sign_mul_pos (p q : Q) : 0 < p -> sign (p * q) = sign q.
Proof.
  intro Hp. destruct (sign_range q) as [H | [H | H]]; rewrite H.
  - apply sign_pos. apply sign_pos in H. nra.
  - apply sign_null. apply sign_null in H. nra.
  - apply sign_neg. apply sign_neg in H. nra.
Qed.

(** ** Facts about the ledger *)

Section LedgerFacts.

Context {Contract : Type} `{EqDec Contract}.

Local Abbreviation Position := (@BacktestPosition Contract).
Local Abbreviation Txn := (@Transaction Contract).

(** *** The two mutating methods, case by case *)

Lemma transact_transaction_cases (t : Txn) (self : Position) :
  transact_transaction t self =
  if is_closed self then (self, inl InvalidStateError)
  else if (Z.abs (sign (number_of_shares self + quantity t)
                  - direction self) <? 2)%Z
  then
    if eq_dec (contract t) (_contract self)
    then
      if Qeq_bool (quantity t) 0 then (self, inl InvalidTransactionError)
      else if Qltb 0 (price t)
           then (record_transaction t self,
                 inr (price t * quantity t + commission t))
           else (self, inl InvalidTransactionError)
    else (self, inl ContractMismatchError)
  else (self, inl DirectionViolationError).
Proof.
  unfold transact_transaction, _check_if_open,
    _check_if_direction_does_not_change, record_transaction,
    _calculate_cost_of_transaction, bind, get, assert_, when, modify,
    ret, raise.
  destruct (is_closed self) eqn:Hc; simpl; [reflexivity|].
  destruct (Z.abs _ <? 2)%Z; simpl; [|reflexivity].
  destruct (eq_dec (contract t) (_contract self)); simpl; [|reflexivity].
  destruct (Qeq_bool (quantity t) 0); simpl; [reflexivity|].
  destruct (Qltb 0 (price t)); simpl; [|reflexivity].
  destruct (transactions self); simpl;
    destruct (Qeq_bool _ 0); reflexivity.
Qed.

Lemma update_price_cases (bid ask : Q) (self : Position) :
  update_price bid ask self =
  if is_closed self then (self, inl InvalidStateError)
  else if Qltb 0 (number_of_shares self)
       then (set_current_price bid self, inr tt)
       else if Qltb (number_of_shares self) 0
            then (set_current_price ask self, inr tt)
            else (self, inr tt).
Proof.
  unfold update_price, _check_if_open, bind, get, assert_, modify,
    ret, raise.
  destruct (is_closed self); simpl; [reflexivity|].
  destruct (Qltb 0 (number_of_shares self)); [reflexivity|].
  destruct (Qltb (number_of_shares self) 0); reflexivity.
Qed.

(** *** What an accepted transaction changes *)

Lemma record_transactions (t : Txn) (self : Position) :
  transactions (record_transaction t self) = transactions self ++ [t].
Proof.
  unfold record_transaction.
  destruct (transactions self) eqn:E; simpl;
    destruct (Qeq_bool _ 0); simpl; rewrite ?E; reflexivity.
Qed.

Lemma record_number_of_shares (t : Txn) (self : Position) :
  number_of_shares (record_transaction t self)
  = number_of_shares self + quantity t.
Proof.
  unfold record_transaction.
  destruct (transactions self); simpl;
    destruct (Qeq_bool _ 0); reflexivity.
Qed.

Lemma record_is_closed (t : Txn) (self : Position) :
  is_closed (record_transaction t self)
  = Qeq_bool (number_of_shares self + quantity t) 0 || is_closed self.
Proof.
  unfold record_transaction.
  destruct (transactions self); simpl;
    destruct (Qeq_bool _ 0); reflexivity.
Qed.

Lemma record_direction (t : Txn) (self : Position) :
  direction (record_transaction t self)
  = match transactions self with
    | [] => sign (quantity t)
    | _ :: _ => direction self
    end.
Proof.
  unfold record_transaction.
  destruct (transactions self); simpl;
    destruct (Qeq_bool _ 0); reflexivity.
Qed.

Lemma record_contract (t : Txn) (self : Position) :
  _contract (record_transaction t self) = _contract self.
Proof.
  unfold record_transaction.
  destruct (transactions self); simpl;
    destruct (Qeq_bool _ 0); reflexivity.
Qed.

Lemma record_current_price (t : Txn) (self : Position) :
  current_price (record_transaction t self) = current_price self.
Proof.
  unfold record_transaction.
  destruct (transactions self); simpl;
    destruct (Qeq_bool _ 0); reflexivity.
Qed.

Lemma sum_quantities_app (l : list Txn) (t : Txn) :
  sum_quantities (l ++ [t]) == sum_quantities l + quantity t.
Proof.
  unfold sum_quantities.
  induction l as [|a l IH]; simpl.
  - ring.
  - rewrite IH. ring.
Qed.

(** *** The invariant *)

Lemma consistent_init (c : Contract) : consistent (__init__ c).
Proof.
  constructor; simpl; try congruence.
  - reflexivity.
  - split; [discriminate | intros [_ Hne]; congruence].
  - constructor.
Qed.

Lemma direction_kept (after_sign d : Z) :
  (d = 1 \/ d = -1)%Z ->
  (after_sign = 1 \/ after_sign = 0 \/ after_sign = -1)%Z ->
  (Z.abs (after_sign - d) <? 2)%Z = true ->
  after_sign <> 0%Z ->
  after_sign = d.
Proof.
  intros Hd Hs Hc Hn. apply Z.ltb_lt in Hc. lia.
Qed.

Lemma consistent_record (t : Txn) (self : Position) :
  consistent self ->
  is_closed self = false ->
  (Z.abs (sign (number_of_shares self + quantity t) - direction self)
   <? 2)%Z = true ->
  contract t = _contract self ->
  ~ quantity t == 0 ->
  0 < price t ->
  consistent (record_transaction t self).
Proof.
  intros [Hsum Hcl Hund Hdef Hsgn Hrec] Hopen Hchg Hct Hq Hp.
  constructor;
    rewrite ?record_transactions, ?record_number_of_shares,
      ?record_is_closed, ?record_direction, ?record_contract.
  - rewrite sum_quantities_app, Hsum. reflexivity.
  - rewrite Hopen, orb_false_r, Qeq_bool_iff. split.
    + intro E. split; [exact E|]. intro A.
      apply app_eq_nil in A. destruct A; discriminate.
    + intros [E _]. exact E.
  - intro A. apply app_eq_nil in A. destruct A; discriminate.
  - intros _. destruct (transactions self) eqn:E.
    + destruct (sign_range (quantity t)) as [S | [S | S]]; auto.
      apply sign_null in S. contradiction.
    + apply Hdef. discriminate.
  - intros _. rewrite Hopen, orb_false_r. intro Hnz.
    apply Qeq_bool_false in Hnz.
    destruct (transactions self) eqn:E.
    + apply sign_compat. unfold sum_quantities in Hsum. simpl in Hsum.
      rewrite Hsum. ring.
    + apply direction_kept; auto.
      * apply Hdef. discriminate.
      * apply sign_range.
      * rewrite sign_null. exact Hnz.
  - apply Forall_app. split; [exact Hrec|].
    constructor; [|constructor]. auto.
Qed.

Lemma consistent_transact (t : Txn) (self : Position) :
  consistent self -> consistent (after (transact_transaction t) self).
Proof.
  intro Hinv. unfold after. rewrite transact_transaction_cases.
  destruct (is_closed self) eqn:Hc; [exact Hinv|].
  destruct (Z.abs _ <? 2)%Z eqn:Hchg; [|exact Hinv].
  destruct (eq_dec (contract t) (_contract self)) as [Hct|]; [|exact Hinv].
  destruct (Qeq_bool (quantity t) 0) eqn:Hq; [exact Hinv|].
  destruct (Qltb 0 (price t)) eqn:Hp; [|exact Hinv].
  simpl. apply consistent_record; auto.
  - apply Qeq_bool_false. exact Hq.
  - apply Qltb_lt. exact Hp.
Qed.

Lemma consistent_set_current_price (p : Q) (self : Position) :
  consistent self -> consistent (set_current_price p self).
Proof.
  intros [Hsum Hcl Hund Hdef Hsgn Hrec]. constructor; assumption.
Qed.

Lemma consistent_update_price (bid ask : Q) (self : Position) :
  consistent self -> consistent (after (update_price bid ask) self).
Proof.
  intro Hinv. unfold after. rewrite update_price_cases.
  destruct (is_closed self); [exact Hinv|].
  destruct (Qltb 0 (number_of_shares self));
    [apply consistent_set_current_price; exact Hinv|].
  destruct (Qltb (number_of_shares self) 0);
    [apply consistent_set_current_price; exact Hinv | exact Hinv].
Qed.

Lemma after_call_transact (t : Txn) (self : Position) :
  after (call (Transact t)) self = after (transact_transaction t) self.
Proof.
  unfold after, call, bind, ret.
  destruct (transact_transaction t self) as [s' [e | a]]; reflexivity.
Qed.

Lemma consistent_call (c : Call) (self : Position) :
  consistent self -> consistent (after (call c) self).
Proof.
  destruct c as [t | bid ask].
  - rewrite after_call_transact. apply consistent_transact.
  - apply consistent_update_price.
Qed.

Lemma reachable_consistent (self : Position) :
  reachable self -> consistent self.
Proof.
  induction 1 as [c | c self _ IH].
  - apply consistent_init.
  - apply consistent_call. exact IH.
Qed.

Lemma reachable_run (calls : list Call) (self : Position) :
  reachable self -> reachable (run calls self).
Proof.
  revert self. induction calls as [|c rest IH]; intros self Hr; simpl.
  - exact Hr.
  - apply IH. constructor. exact Hr.
Qed.

(** *** Outcomes of [transact_transaction] *)

Lemma transact_failed_unchanged (t : Txn) (self : Position) (e : Error) :
  outcome (transact_transaction t) self = inl e ->
  after (transact_transaction t) self = self.
Proof.
  unfold outcome, after. rewrite transact_transaction_cases.
  destruct (is_closed self); [reflexivity|].
  destruct (Z.abs _ <? 2)%Z; [|reflexivity].
  destruct (eq_dec (contract t) (_contract self)); [|reflexivity].
  destruct (Qeq_bool (quantity t) 0); [reflexivity|].
  destruct (Qltb 0 (price t)); [|reflexivity].
  simpl. discriminate.
Qed.

Lemma transact_accepted_inv (t : Txn) (self : Position) (cash : Q) :
  outcome (transact_transaction t) self = inr cash ->
  is_closed self = false
  /\ (Z.abs (sign (number_of_shares self + quantity t) - direction self)
      <? 2)%Z = true
  /\ contract t = _contract self
  /\ ~ quantity t == 0
  /\ 0 < price t
  /\ cash = price t * quantity t + commission t
  /\ after (transact_transaction t) self = record_transaction t self.
Proof.
  unfold outcome, after. rewrite transact_transaction_cases.
  destruct (is_closed self); [discriminate|].
  destruct (Z.abs _ <? 2)%Z; [|discriminate].
  destruct (eq_dec (contract t) (_contract self)) as [Hct|]; [|discriminate].
  destruct (Qeq_bool (quantity t) 0) eqn:Hq; [discriminate|].
  destruct (Qltb 0 (price t)) eqn:Hp; [|discriminate].
  simpl. intro E. injection E as E.
  repeat split; auto.
  - apply Qeq_bool_false. exact Hq.
  - apply Qltb_lt. exact Hp.
Qed.

Lemma transact_accepted (t : Txn) (self : Position) :
  is_closed self = false ->
  (Z.abs (sign (number_of_shares self + quantity t) - direction self)
   <? 2)%Z = true ->
  contract t = _contract self ->
  ~ quantity t == 0 ->
  0 < price t ->
  transact_transaction t self
  = (record_transaction t self, inr (price t * quantity t + commission t)).
Proof.
  intros Hopen Hchg Hct Hq Hp. rewrite transact_transaction_cases.
  rewrite Hopen, Hchg.
  destruct (eq_dec (contract t) (_contract self)); [|contradiction].
  apply Qeq_bool_false in Hq. rewrite Hq.
  apply Qltb_lt in Hp. rewrite Hp. reflexivity.
Qed.

Lemma closed_transact (t : Txn) (self : Position) :
  is_closed self = true ->
  transact_transaction t self = (self, inl InvalidStateError).
Proof.
  intro Hc. rewrite transact_transaction_cases, Hc. reflexivity.
Qed.

Lemma closed_update_price (bid ask : Q) (self : Position) :
  is_closed self = true ->
  update_price bid ask self = (self, inl InvalidStateError).
Proof.
  intro Hc. rewrite update_price_cases, Hc. reflexivity.
Qed.

Lemma closed_run (calls : list Call) (self : Position) :
  is_closed self = true -> run calls self = self.
Proof.
  intro Hc. induction calls as [|c rest IH]; simpl; [reflexivity|].
  replace (after (call c) self) with self; [exact IH|].
  destruct c as [t | bid ask].
  - rewrite after_call_transact. unfold after.
    rewrite closed_transact by exact Hc. reflexivity.
  - unfold after, call. rewrite closed_update_price by exact Hc.
    reflexivity.
Qed.

(** *** The direction check and sign flips *)

Lemma flat_without_transactions (self : Position) :
  consistent self -> transactions self = [] ->
  number_of_shares self == 0.
Proof.
  intros Hinv E. rewrite (inv_sum _ Hinv), E. reflexivity.
Qed.

Lemma open_sign (self : Position) :
  consistent self -> is_closed self = false ->
  sign (number_of_shares self) = direction self.
Proof.
  intros Hinv Hopen. destruct (transactions self) eqn:E.
  - rewrite (inv_undefined _ Hinv E). apply sign_null.
    apply flat_without_transactions; assumption.
  - apply (inv_sign _ Hinv); [rewrite E; discriminate | exact Hopen].
Qed.

Lemma direction_check_fails_iff (t : Txn) (self : Position) :
  consistent self -> is_closed self = false ->
  (Z.abs (sign (number_of_shares self + quantity t) - direction self)
   <? 2)%Z = false
  <-> flips_sign self t.
Proof.
  intros Hinv Hopen. pose proof (open_sign _ Hinv Hopen) as Hs.
  rewrite <- Hs. unfold flips_sign.
  rewrite Z.ltb_ge.
  destruct (sign_range (number_of_shares self)) as [S | [S | S]];
    destruct (sign_range (number_of_shares self + quantity t))
      as [S' | [S' | S']];
    rewrite S, S';
    first [ apply sign_pos in S | apply sign_null in S | apply sign_neg in S ];
    first [ apply sign_pos in S' | apply sign_null in S'
          | apply sign_neg in S' ];
    (split; [ intro A; simpl in A; try lia | intros [[A B] | [A B]] ];
     try lra; simpl; try lia).
Qed.

(** *** Positions that were never priced *)

Lemma transact_keeps_price (t : Txn) (self : Position) :
  current_price (after (transact_transaction t) self) = current_price self.
Proof.
  unfold after. rewrite transact_transaction_cases.
  destruct (is_closed self); [reflexivity|].
  destruct (Z.abs _ <? 2)%Z; [|reflexivity].
  destruct (eq_dec (contract t) (_contract self)); [|reflexivity].
  destruct (Qeq_bool (quantity t) 0); [reflexivity|].
  destruct (Qltb 0 (price t)); [|reflexivity].
  simpl. apply record_current_price.
Qed.

Lemma update_price_failed_unchanged (bid ask : Q) (self : Position) :
  failed (outcome (update_price bid ask) self) = true ->
  after (update_price bid ask) self = self.
Proof.
  unfold outcome, after. rewrite update_price_cases.
  destruct (is_closed self); [reflexivity|].
  destruct (Qltb 0 (number_of_shares self)); [discriminate|].
  destruct (Qltb (number_of_shares self) 0); [discriminate|reflexivity].
Qed.

Lemma never_updated_price (calls : list Call) (self : Position) :
  price_never_updated calls self = true ->
  current_price (run calls self) = current_price self.
Proof.
  revert self. induction calls as [|c rest IH]; intros self Hn; simpl.
  - reflexivity.
  - simpl in Hn. apply andb_true_iff in Hn. destruct Hn as [Hc Hrest].
    rewrite (IH _ Hrest). destruct c as [t | bid ask].
    + rewrite after_call_transact. apply transact_keeps_price.
    + unfold call. rewrite update_price_failed_unchanged by exact Hc.
      reflexivity.
Qed.

(** *** The specification's statements *)

(** C1.  In every reachable state [number_of_shares] is the sum of the
    quantities of the recorded transactions; and an accepted
    [transact_transaction] call appends its transaction to the log and
    leaves [number_of_shares] equal to the sum over the extended log, so
    the equation holds after each call of any sequence of accepted
    calls. *)
Theorem number_of_shares_is_sum_of_quantities (self : Position) :
  reachable self ->
  number_of_shares self == sum_quantities (transactions self)
  /\ forall (t : Txn) (cash : Q),
      outcome (transact_transaction t) self = inr cash ->
      transactions (after (transact_transaction t) self)
      = transactions self ++ [t]
      /\ number_of_shares (after (transact_transaction t) self)
         == sum_quantities (transactions self ++ [t]).
Proof.
  intro Hr. pose proof (reachable_consistent _ Hr) as Hinv. split.
  - exact (inv_sum _ Hinv).
  - intros t cash Hok.
    pose proof (consistent_transact t _ Hinv) as Hinv'.
    pose proof (inv_sum _ Hinv') as Hsum.
    apply transact_accepted_inv in Hok.
    destruct Hok as (_ & _ & _ & _ & _ & _ & Hafter).
    rewrite Hafter in *. rewrite record_transactions in *.
    split; [reflexivity | exact Hsum].
Qed.

(** C2.  In every reachable state [is_closed] holds exactly when
    [number_of_shares] is zero and at least one transaction has been
    recorded; and once [is_closed] holds, every [transact_transaction]
    call raises [InvalidStateError] and leaves the position as it was (so
    does [update_price]), hence no history of calls leads out of the
    closed state. *)
Theorem closed_iff_flat_and_terminal (self : Position) :
  reachable self ->
  (is_closed self = true <->
   number_of_shares self == 0 /\ transactions self <> [])
  /\ (is_closed self = true ->
      (forall t : Txn,
          transact_transaction t self = (self, inl InvalidStateError))
      /\ (forall bid ask : Q,
             update_price bid ask self = (self, inl InvalidStateError))
      /\ (forall calls : list Call, run calls self = self)).
Proof.
  intro Hr. pose proof (reachable_consistent _ Hr) as Hinv. split.
  - exact (inv_closed _ Hinv).
  - intro Hc. repeat split.
    + intro t. apply closed_transact. exact Hc.
    + intros bid ask. apply closed_update_price. exact Hc.
    + intro calls. apply closed_run. exact Hc.
Qed.

(** C3.  On a reachable open position whose direction is set,
    [transact_transaction] raises [DirectionViolationError] (and changes
    nothing) for every transaction that would take [number_of_shares]
    from one strict sign to the opposite strict sign.  A transaction that
    brings [number_of_shares] exactly to zero, or that goes further in
    the position's direction, passes the direction check, and is accepted
    as soon as it is a transaction of the position's contract at a
    positive price. *)
Theorem direction_flip_rejected (t : Txn) (self : Position) :
  reachable self ->
  is_closed self = false ->
  direction self <> 0%Z ->
  (flips_sign self t ->
   transact_transaction t self = (self, inl DirectionViolationError))
  /\ (number_of_shares self + quantity t == 0
      \/ sign (quantity t) = direction self ->
      _check_if_direction_does_not_change t self = (self, inr tt)
      /\ (contract t = _contract self ->
          0 < price t ->
          transact_transaction t self
          = (record_transaction t self,
             inr (price t * quantity t + commission t)))).
Proof.
  intros Hr Hopen Hdir.
  pose proof (reachable_consistent _ Hr) as Hinv.
  pose proof (open_sign _ Hinv Hopen) as Hs.
  pose proof (direction_check_fails_iff t _ Hinv Hopen) as Hiff.
  split.
  - intro Hflip. apply Hiff in Hflip.
    rewrite transact_transaction_cases, Hopen, Hflip. reflexivity.
  - intro Hcase.
    assert (Hq : ~ quantity t == 0).
    { destruct Hcase as [Hz | Hsame].
      - intro Hq0. apply Hdir. rewrite <- Hs. apply sign_null.
        rewrite <- Hz, Hq0. ring.
      - rewrite <- sign_null. congruence. }
    assert (Hnoflip : ~ flips_sign self t).
    { unfold flips_sign. destruct Hcase as [Hz | Hsame].
      - intros [[_ A] | [_ A]]; rewrite Hz in A;
          exact (Qlt_irrefl _ A).
      - rewrite <- Hs in Hsame.
        destruct (sign_range (quantity t)) as [S | [S | S]].
        + rewrite S in Hsame. symmetry in Hsame.
          apply sign_pos in S, Hsame. lra.
        + apply sign_null in S. contradiction.
        + rewrite S in Hsame. symmetry in Hsame.
          apply sign_neg in S, Hsame. lra. }
    assert (Hchg : (Z.abs (sign (number_of_shares self + quantity t)
                           - direction self) <? 2)%Z = true).
    { destruct (Z.abs _ <? 2)%Z eqn:E; [reflexivity|].
      exfalso. apply Hnoflip, Hiff. reflexivity. }
    split.
    + unfold _check_if_direction_does_not_change, bind, get, assert_.
      cbv zeta. rewrite Hchg. reflexivity.
    + intros Hct Hp. apply transact_accepted; assumption.
Qed.

(** C5.  [update_price] raises [InvalidStateError] on a closed position
    (and changes nothing); on an open one it returns normally, and
    afterwards [current_price] is the bid price when
    [number_of_shares > 0] and the ask price when [number_of_shares < 0],
    every other attribute being as before; when [number_of_shares] is
    zero the position is left unchanged, [current_price] included. *)
Theorem update_price_marks_conservatively (bid ask : Q) (self : Position) :
  (is_closed self = true ->
   update_price bid ask self = (self, inl InvalidStateError))
  /\ (is_closed self = false ->
      (0 < number_of_shares self ->
       outcome (update_price bid ask) self = inr tt
       /\ current_price (after (update_price bid ask) self) = bid
       /\ only_price_differs self (after (update_price bid ask) self))
      /\ (number_of_shares self < 0 ->
          outcome (update_price bid ask) self = inr tt
          /\ current_price (after (update_price bid ask) self) = ask
          /\ only_price_differs self (after (update_price bid ask) self))
      /\ (number_of_shares self == 0 ->
          update_price bid ask self = (self, inr tt)
          /\ current_price (after (update_price bid ask) self)
             = current_price self)).
Proof.
  split.
  - apply closed_update_price.
  - intro Hopen. unfold outcome, after, only_price_differs.
    rewrite update_price_cases, Hopen.
    split; [|split].
    + intro Hpos. apply Qltb_lt in Hpos. rewrite Hpos. simpl.
      repeat split; exact Hopen.
    + intro Hneg.
      assert (Hn : Qltb 0 (number_of_shares self) = false)
        by (apply Qltb_nlt; lra).
      apply Qltb_lt in Hneg. rewrite Hn, Hneg. simpl.
      repeat split; exact Hopen.
    + intro Hz.
      assert (Hn : Qltb 0 (number_of_shares self) = false)
        by (apply Qltb_nlt; lra).
      assert (Hm : Qltb (number_of_shares self) 0 = false)
        by (apply Qltb_nlt; lra).
      rewrite Hn, Hm. simpl. split; reflexivity.
Qed.

(** C8, as amended.  On a reachable open position, a transaction of
    another contract is rejected whatever its quantity and price: with
    [ContractMismatchError] when it would not flip the sign of
    [number_of_shares], and with [DirectionViolationError] when it would,
    because the direction check runs before the comparison of the
    contracts.  The position is unchanged in both cases. *)
Theorem contract_mismatch_rejected (t : Txn) (self : Position) :
  reachable self ->
  is_closed self = false ->
  contract t <> _contract self ->
  (~ flips_sign self t ->
   transact_transaction t self = (self, inl ContractMismatchError))
  /\ (flips_sign self t ->
      transact_transaction t self = (self, inl DirectionViolationError)).
Proof.
  intros Hr Hopen Hct.
  pose proof (reachable_consistent _ Hr) as Hinv.
  pose proof (direction_check_fails_iff t _ Hinv Hopen) as Hiff.
  rewrite transact_transaction_cases, Hopen.
  destruct (Z.abs _ <? 2)%Z eqn:E.
  - destruct (eq_dec (contract t) (_contract self)); [contradiction|].
    split; [reflexivity|]. intro Hflip. apply Hiff in Hflip. discriminate.
  - split; [|reflexivity]. intro Hno. exfalso. apply Hno, Hiff. reflexivity.
Qed.

(** C9.  Whenever [transact_transaction] raises, whichever of the four
    errors it is, the position object (all of its attributes) is exactly
    as it was before the call. *)
Theorem rejected_transaction_changes_nothing
        (t : Txn) (self : Position) (e : Error) :
  outcome (transact_transaction t) self = inl e ->
  after (transact_transaction t) self = self.
Proof.
  apply transact_failed_unchanged.
Qed.

(** C10.  After any history of calls in which no [update_price] call
    returned normally, [current_price] is still 0, so [market_value] is 0
    and [unrealised_pnl] is [- cost_basis], whatever the number of shares
    held. *)
Theorem never_priced_position_has_no_market_value
        (c : Contract) (calls : list Call) :
  price_never_updated calls (__init__ c) = true ->
  current_price (run calls (__init__ c)) == 0
  /\ market_value (run calls (__init__ c)) == 0
  /\ unrealised_pnl (run calls (__init__ c))
     == - cost_basis (run calls (__init__ c)).
Proof.
  intro Hn. apply never_updated_price in Hn. simpl in Hn.
  unfold unrealised_pnl, market_value. rewrite Hn.
  repeat split; ring.
Qed.

End LedgerFacts.

(** ** Statements with the specification's examples *)

(** C4.  The code at a fresh position and the sale of one share at 1
    with a commission of 5: the transaction is accepted and the value
    returned is [price * quantity + commission] = 1 * (-1) + 5 = 4, a
    positive number for a sell. *)
Theorem sell_returns_positive_cash_flow :
  outcome (transact_transaction Example.costly_sell) (__init__ Example.ACME)
  = inr (price Example.costly_sell * quantity Example.costly_sell
         + commission Example.costly_sell)
  /\ price Example.costly_sell * quantity Example.costly_sell
     + commission Example.costly_sell == 4
  /\ quantity Example.costly_sell < 0
  /\ 0 < price Example.costly_sell * quantity Example.costly_sell
         + commission Example.costly_sell.
Proof.
  repeat split; vm_compute; reflexivity.
Qed.

(** C7.  The code at two reachable positions: after one share is sold
    short at 1 with a commission of 5, [avg_cost_per_share] is -4; after
    one share is bought at 1 with a commission of -2, it is -1.  The
    average cost is negative as soon as the commissions of the opening
    transactions outweigh their traded amount. *)
Theorem avg_cost_per_share_negative :
  reachable Example.short_1
  /\ avg_cost_per_share Example.short_1 == -4
  /\ avg_cost_per_share Example.short_1 < 0
  /\ reachable Example.long_1
  /\ avg_cost_per_share Example.long_1 == -1
  /\ avg_cost_per_share Example.long_1 < 0.
Proof.
  repeat split;
    try (apply reachable_run; apply reachable_init);
    vm_compute; reflexivity.
Qed.

(** ** Concrete instances *)

Lemma number_of_shares_is_sum_of_quantities_witness :
  number_of_shares Example.opened
  == sum_quantities (transactions Example.opened)
  /\ transactions (after (transact_transaction Example.sell_4)
                         Example.opened)
     = [Example.buy_10; Example.sell_4]
  /\ number_of_shares (after (transact_transaction Example.sell_4)
                             Example.opened)
     == sum_quantities [Example.buy_10; Example.sell_4].
Proof.
  assert (Hr : reachable Example.opened)
    by (apply reachable_run; apply reachable_init).
  destruct (number_of_shares_is_sum_of_quantities Example.opened Hr)
    as [Hsum Hstep].
  split; [exact Hsum|].
  apply (Hstep Example.sell_4 (110 * -4 + 1)).
  vm_compute. reflexivity.
Defined.

Lemma closed_iff_flat_and_terminal_witness :
  is_closed Example.closed = true
  /\ number_of_shares Example.closed == 0
  /\ transactions Example.closed <> []
  /\ transact_transaction Example.buy_10 Example.closed
     = (Example.closed, inl InvalidStateError).
Proof.
  assert (Hr : reachable Example.closed)
    by (apply reachable_run; apply reachable_init).
  destruct (closed_iff_flat_and_terminal Example.closed Hr) as [Hiff Hterm].
  assert (Hc : is_closed Example.closed = true) by reflexivity.
  destruct (proj1 Hiff Hc) as [Hflat Hsome].
  destruct (Hterm Hc) as [Hrej _].
  split; [exact Hc|].
  split; [exact Hflat|].
  split; [exact Hsome | exact (Hrej Example.buy_10)].
Defined.

Lemma direction_flip_rejected_witness :
  transact_transaction Example.sell_8 Example.long_5
  = (Example.long_5, inl DirectionViolationError)
  /\ transact_transaction Example.sell_5 Example.long_5
     = (record_transaction Example.sell_5 Example.long_5,
        inr (20 * -5 + 0))
  /\ transact_transaction Example.buy_3 Example.long_5
     = (record_transaction Example.buy_3 Example.long_5,
        inr (20 * 3 + 0)).
Proof.
  assert (Hr : reachable Example.long_5)
    by (apply reachable_run; apply reachable_init).
  assert (Hopen : is_closed Example.long_5 = false) by reflexivity.
  assert (Hdir : direction Example.long_5 <> 0%Z)
    by (vm_compute; discriminate).
  split; [|split].
  - apply (direction_flip_rejected Example.sell_8 Example.long_5
                                   Hr Hopen Hdir).
    left. split; vm_compute; reflexivity.
  - apply (direction_flip_rejected Example.sell_5 Example.long_5
                                   Hr Hopen Hdir).
    + left. vm_compute. reflexivity.
    + reflexivity.
    + vm_compute. reflexivity.
  - apply (direction_flip_rejected Example.buy_3 Example.long_5
                                   Hr Hopen Hdir).
    + right. reflexivity.
    + reflexivity.
    + vm_compute. reflexivity.
Defined.

Lemma update_price_marks_conservatively_witness :
  outcome (update_price 105 106) Example.opened = inr tt
  /\ current_price (after (update_price 105 106) Example.opened) = 105
  /\ only_price_differs Example.opened
                        (after (update_price 105 106) Example.opened)
  /\ update_price 105 106 Example.closed
     = (Example.closed, inl InvalidStateError).
Proof.
  assert (Hopen : is_closed Example.opened = false) by reflexivity.
  assert (Hlong : 0 < number_of_shares Example.opened)
    by (vm_compute; reflexivity).
  destruct (proj1 (proj2 (update_price_marks_conservatively
                            105 106 Example.opened) Hopen) Hlong)
    as (Hok & Hprice & Hframe).
  split; [exact Hok|]. split; [exact Hprice|]. split; [exact Hframe|].
  apply (update_price_marks_conservatively 105 106 Example.closed).
  reflexivity.
Defined.

Lemma contract_mismatch_rejected_witness :
  transact_transaction Example.sell_2_other Example.long_5
  = (Example.long_5, inl ContractMismatchError).
Proof.
  apply (contract_mismatch_rejected Example.sell_2_other Example.long_5).
  - apply reachable_run; apply reachable_init.
  - reflexivity.
  - vm_compute. discriminate.
  - intros [[_ A] | [A _]]; vm_compute in A; discriminate.
Defined.

Lemma rejected_transaction_changes_nothing_witness :
  after (transact_transaction Example.sell_8) Example.long_5
  = Example.long_5.
Proof.
  apply (rejected_transaction_changes_nothing
           Example.sell_8 Example.long_5 DirectionViolationError).
  vm_compute. reflexivity.
Defined.

Lemma never_priced_position_has_no_market_value_witness :
  current_price Example.opened == 0
  /\ market_value Example.opened == 0
  /\ unrealised_pnl Example.opened == - cost_basis Example.opened.
Proof.
  apply (never_priced_position_has_no_market_value
           Example.ACME [Transact Example.buy_10]).
  reflexivity.
Defined.

(** ** Where the specification's wording does not hold *)

(** C8: a transaction of another contract that is rejected by the
    direction check, not by the comparison of the contracts. *)
Lemma contract_mismatch_counterexample :
  reachable Example.long_5
  /\ is_closed Example.long_5 = false
  /\ contract Example.sell_8_other <> _contract Example.long_5
  /\ outcome (transact_transaction Example.sell_8_other) Example.long_5
     = inl DirectionViolationError
  /\ outcome (transact_transaction Example.sell_8_other) Example.long_5
     <> inl ContractMismatchError.
Proof.
  repeat split;
    try (apply reachable_run; apply reachable_init);
    try (vm_compute; reflexivity);
    vm_compute; discriminate.
Qed.

(** ** Further properties of the position *)

Section AccountingFacts.

Context {Contract : Type} `{EqDec Contract}.

Local Abbreviation Position := (@BacktestPosition Contract).
Local Abbreviation Txn := (@Transaction Contract).

(** *** What one call can do to the object *)

Lemma after_transact_cases (t : Txn) (self : Position) :
  (failed (outcome (transact_transaction t) self) = true
   /\ after (transact_transaction t) self = self)
  \/ (outcome (transact_transaction t) self
      = inr (price t * quantity t + commission t)
      /\ after (transact_transaction t) self = record_transaction t self
      /\ is_closed self = false
      /\ contract t = _contract self
      /\ ~ quantity t == 0
      /\ 0 < price t).
Proof.
  destruct (outcome (transact_transaction t) self) as [e | cash] eqn:E.
  - left. split; [reflexivity|].
    apply (transact_failed_unchanged t self e). exact E.
  - right. apply transact_accepted_inv in E.
    destruct E as (Ho & _ & Hc & Hq & Hp & Hcash & Ha).
    subst cash. repeat split; assumption.
Qed.

Lemma after_update_price_cases (bid ask : Q) (self : Position) :
  after (update_price bid ask) self = self
  \/ (is_closed self = false
      /\ exists p : Q,
          (p = bid \/ p = ask)
          /\ after (update_price bid ask) self = set_current_price p self).
Proof.
  unfold after. rewrite update_price_cases.
  destruct (is_closed self); [left; reflexivity|].
  destruct (Qltb 0 (number_of_shares self)).
  - right. split; [reflexivity|]. exists bid. split; [left|]; reflexivity.
  - destruct (Qltb (number_of_shares self) 0).
    + right. split; [reflexivity|]. exists ask.
      split; [right|]; reflexivity.
    + left. reflexivity.
Qed.

(** An invariant of the three ways a call can leave the object is an
    invariant of every history. *)
Lemma run_invariant (P : Position -> Prop) :
  (forall (t : Txn) (self : Position),
      P self -> is_closed self = false -> contract t = _contract self ->
      ~ quantity t == 0 -> 0 < price t ->
      after (transact_transaction t) self = record_transaction t self ->
      P (record_transaction t self)) ->
  (forall (p : Q) (self : Position),
      P self -> is_closed self = false -> P (set_current_price p self)) ->
  forall (calls : list Call) (self : Position),
    P self -> P (run calls self).
Proof.
  intros Hrec Hprice calls.
  induction calls as [|c rest IH]; intros self HP; simpl; [exact HP|].
  apply IH. destruct c as [t | bid ask].
  - rewrite after_call_transact.
    destruct (after_transact_cases t self)
      as [[_ Hsame] | (_ & Hafter & Ho & Hc & Hq & Hp)].
    + rewrite Hsame. exact HP.
    + rewrite Hafter. apply Hrec; assumption.
  - unfold call.
    destruct (after_update_price_cases bid ask self)
      as [Hsame | (Ho & p & _ & Hafter)].
    + rewrite Hsame. exact HP.
    + rewrite Hafter. apply Hprice; assumption.
Qed.

(** *** Direction, contract and log over a history *)

Lemma first_transaction_kept (calls : list Call) (self : Position) :
  match transactions self with
  | [] => True
  | first :: _ => direction self = sign (quantity first)
  end ->
  match transactions (run calls self) with
  | [] => True
  | first :: _ => direction (run calls self) = sign (quantity first)
  end.
Proof.
  apply (run_invariant
           (fun s => match transactions s with
                     | [] => True
                     | first :: _ => direction s = sign (quantity first)
                     end)).
  - intros t s HP _ _ _ _ _.
    rewrite record_transactions, record_direction.
    destruct (transactions s); simpl; [reflexivity | exact HP].
  - intros p s HP _. exact HP.
Qed.

Lemma contract_kept (calls : list Call) (self : Position) :
  _contract (run calls self) = _contract self.
Proof.
  apply (run_invariant (fun s => _contract s = _contract self)).
  - intros t s HP _ _ _ _ _. rewrite record_contract. exact HP.
  - intros p s HP _. exact HP.
  - reflexivity.
Qed.

(** X1.  The first accepted transaction fixes the direction for good:
    after any history of calls on a fresh position, [direction] is 0
    while the log is empty, and otherwise it is the sign of the quantity
    of the first recorded transaction, which is not 0. *)
Theorem direction_is_sign_of_first_transaction
        (c : Contract) (calls : list Call) :
  match transactions (run calls (__init__ c)) with
  | [] => direction (run calls (__init__ c)) = 0%Z
  | first :: _ =>
      direction (run calls (__init__ c)) = sign (quantity first)
      /\ direction (run calls (__init__ c)) <> 0%Z
  end.
Proof.
  pose proof (first_transaction_kept calls (__init__ c) I) as Hfirst.
  assert (Hinv : consistent (run calls (__init__ c))).
  { apply reachable_consistent, reachable_run, reachable_init. }
  destruct (transactions (run calls (__init__ c))) as [|first l] eqn:E.
  - apply (inv_undefined _ Hinv). exact E.
  - split; [exact Hfirst|].
    assert (Hd : transactions (run calls (__init__ c)) <> [])
      by (rewrite E; discriminate).
    destruct (inv_defined _ Hinv Hd) as [D | D]; rewrite D; discriminate.
Qed.

(** X2.  After any history of calls on a position created for contract
    [c], [contract()] still returns [c], and every recorded transaction
    is a transaction of [c] with a non-zero quantity and a positive
    price. *)
Theorem recorded_transactions_are_valid
        (c : Contract) (calls : list Call) :
  contract_ (run calls (__init__ c)) = c
  /\ Forall (fun t : Txn =>
               contract t = c /\ ~ quantity t == 0 /\ 0 < price t)
            (transactions (run calls (__init__ c))).
Proof.
  assert (Hc : _contract (run calls (__init__ c)) = c)
    by (rewrite contract_kept; reflexivity).
  split; [exact Hc|].
  assert (Hinv : consistent (run calls (__init__ c))).
  { apply reachable_consistent, reachable_run, reachable_init. }
  pose proof (inv_recorded _ Hinv) as F. rewrite Hc in F.
  apply (Forall_impl _ (P := fun t : Txn =>
                              ~ quantity t == 0 /\ 0 < price t
                              /\ contract t = c)); [|exact F].
  intros t (Hq & Hp & Hct). repeat split; assumption.
Qed.

(** X3.  The log is append-only: after any history of calls, on any
    position object, the log is the log before followed by exactly the
    transactions whose [transact_transaction] call returned normally, in
    the order of the calls.  Nothing is removed or reordered, and a
    rejected transaction is never recorded. *)
Theorem log_is_append_only (calls : list Call) (self : Position) :
  transactions (run calls self) = transactions self ++ accepted calls self.
Proof.
  revert self. induction calls as [|c rest IH]; intro self; simpl.
  - rewrite app_nil_r. reflexivity.
  - rewrite IH. destruct c as [t | bid ask].
    + rewrite after_call_transact.
      destruct (after_transact_cases t self)
        as [[Hf Hsame] | (Hok & Hafter & _)].
      * rewrite Hf, Hsame. reflexivity.
      * rewrite Hok, Hafter, record_transactions. simpl.
        rewrite <- app_assoc. reflexivity.
    + unfold call.
      destruct (after_update_price_cases bid ask self)
        as [Hsame | (_ & p & _ & Hafter)]; rewrite ?Hsame, ?Hafter;
        reflexivity.
Qed.

(** *** Sums over a log *)








(** *** Average cost, realized profit and the cash flows *)

(** What the accounting lemmas need of a position: the invariant, and
    that the direction is the sign of the first recorded quantity. *)
Lemma history_state (c : Contract) (calls : list Call) :
  consistent (run calls (__init__ c))
  /\ match transactions (run calls (__init__ c)) with
     | [] => True
     | first :: _ =>
         direction (run calls (__init__ c)) = sign (quantity first)
     end.
Proof.
  split.
  - apply reachable_consistent, reachable_run, reachable_init.
  - apply first_transaction_kept. exact I.
Qed.





(** X9.  A recorded transaction against the direction of the position (a
    sale out of a long position, a purchase into a short one) does not
    change [avg_cost_per_share()]. *)
Theorem reducing_transaction_keeps_avg_cost
        (t : Txn) (self : Position) (cash : Q) :
  outcome (transact_transaction t) self = inr cash ->
  transactions self <> [] ->
  sign (quantity t) <> direction self ->
  avg_cost_per_share (after (transact_transaction t) self)
  = avg_cost_per_share self.
Proof.
  intros Hok Hne Hsign. apply transact_accepted_inv in Hok.
  destruct Hok as (_ & _ & _ & _ & _ & _ & Hafter). rewrite Hafter.
  unfold avg_cost_per_share, avg_cost_loop.
  rewrite record_direction, record_transactions.
  destruct (transactions self) as [|first l] eqn:E; [congruence|].
  rewrite fold_left_app.
  destruct (fold_left _ (first :: l) (0, 0)) as [cost shares]. simpl.
  apply Z.eqb_neq in Hsign. rewrite Hsign. reflexivity.
Qed.

(** X10.  After any history of calls on a fresh position the sign of
    [number_of_shares] is the direction while the position is open, and 0
    once it is closed: the share count is never on the side opposite to
    the direction. *)
Theorem shares_sign_is_direction (c : Contract) (calls : list Call) :
  sign (number_of_shares (run calls (__init__ c)))
  = if is_closed (run calls (__init__ c)) then 0%Z
    else direction (run calls (__init__ c)).
Proof.
  destruct (history_state c calls) as [Hinv _].
  destruct (is_closed (run calls (__init__ c))) eqn:Hc.
  - apply sign_null. apply (inv_closed _ Hinv). exact Hc.
  - apply open_sign; assumption.
Qed.

Local Ltac table_rows :=
  repeat split; intros;
  repeat match goal with
         | A : exists _, _ |- _ => destruct A
         | A : _ /\ _ |- _ => destruct A
         | A : _ \/ _ |- _ => destruct A
         end;
  try discriminate; try contradiction; try reflexivity;
  try (exfalso; lra);
  try (eexists; reflexivity);
  try (repeat split; try assumption;
       first [ left; assumption | right; assumption ]).

(** X11.  The decision table of [transact_transaction] after any history
    of calls on a fresh position.  The call returns normally exactly when
    the position is open, the transaction would not flip the sign of the
    share count, it is on the position's contract, its quantity is not
    zero and its price is positive; the error raised otherwise is the
    first that applies in the order closed position, sign flip, other
    contract, zero quantity or non-positive price. *)
Theorem transact_transaction_decision_table
        (c : Contract) (calls : list Call) (t : Txn) :
  let self := run calls (__init__ c) in
  ((exists cash, outcome (transact_transaction t) self = inr cash)
   <-> is_closed self = false /\ ~ flips_sign self t
       /\ contract t = c /\ ~ quantity t == 0 /\ 0 < price t)
  /\ (outcome (transact_transaction t) self = inl InvalidStateError
      <-> is_closed self = true)
  /\ (outcome (transact_transaction t) self = inl DirectionViolationError
      <-> is_closed self = false /\ flips_sign self t)
  /\ (outcome (transact_transaction t) self = inl ContractMismatchError
      <-> is_closed self = false /\ ~ flips_sign self t
          /\ contract t <> c)
  /\ (outcome (transact_transaction t) self = inl InvalidTransactionError
      <-> is_closed self = false /\ ~ flips_sign self t
          /\ contract t = c
          /\ (quantity t == 0 \/ price t <= 0)).
Proof.
  intro self. subst self.
  destruct (history_state c calls) as [Hinv _].
  assert (Hc : _contract (run calls (__init__ c)) = c)
    by (rewrite contract_kept; reflexivity).
  set (s := run calls (__init__ c)) in *.
  unfold outcome. rewrite transact_transaction_cases, Hc.
  destruct (is_closed s) eqn:Hcl.
  { simpl. table_rows. }
  pose proof (direction_check_fails_iff t _ Hinv Hcl) as Hiff.
  destruct (Z.abs _ <? 2)%Z eqn:Hchg.
  - assert (Hno : ~ flips_sign s t).
    { intro Hf. apply Hiff in Hf. discriminate. }
    destruct (eq_dec (contract t) c) as [Hct | Hct].
    + destruct (Qeq_bool (quantity t) 0) eqn:Hq.
      * apply Qeq_bool_iff in Hq. simpl. table_rows.
      * apply Qeq_bool_false in Hq.
        destruct (Qltb 0 (price t)) eqn:Hp.
        -- apply Qltb_lt in Hp. simpl. table_rows.
        -- apply Qltb_nlt in Hp. simpl. table_rows.
    + simpl. table_rows.
  - assert (Hf : flips_sign s t) by (apply Hiff; reflexivity).
    simpl. table_rows.
Qed.

(** X12.  On an open position with at least one recorded transaction
    [update_price] returns normally, and afterwards [current_price] is
    the bid price when [direction] is 1 (long) and the ask price when it
    is -1 (short); no other attribute changes. *)
Theorem update_price_marks_by_direction
        (c : Contract) (calls : list Call) (bid ask : Q) :
  is_closed (run calls (__init__ c)) = false ->
  transactions (run calls (__init__ c)) <> [] ->
  outcome (update_price bid ask) (run calls (__init__ c)) = inr tt
  /\ current_price (after (update_price bid ask) (run calls (__init__ c)))
     = (if (direction (run calls (__init__ c)) =? 1)%Z then bid else ask)
  /\ only_price_differs
       (run calls (__init__ c))
       (after (update_price bid ask) (run calls (__init__ c))).
Proof.
  intros Hopen Hne. destruct (history_state c calls) as [Hinv _].
  set (s := run calls (__init__ c)) in *.
  pose proof (open_sign _ Hinv Hopen) as Hs.
  unfold outcome, after, only_price_differs.
  rewrite update_price_cases, Hopen.
  destruct (inv_defined _ Hinv Hne) as [D | D]; rewrite D in *; simpl.
  - apply sign_pos in Hs. apply Qltb_lt in Hs. rewrite Hs. simpl.
    repeat split; assumption.
  - apply sign_neg in Hs.
    assert (Hn : Qltb 0 (number_of_shares s) = false)
      by (apply Qltb_nlt; lra).
    apply Qltb_lt in Hs. rewrite Hn, Hs. simpl.
    repeat split; assumption.
Qed.

(** X13.  [current_price] is only ever assigned by [update_price]: after
    any history of calls it is the price the object started with (0 for a
    fresh position) or one of the bid and ask prices passed to
    [update_price] during the history. *)
Theorem current_price_is_a_quote (calls : list Call) (self : Position) :
  In (current_price (run calls self)) (current_price self :: quotes calls).
Proof.
  revert self. induction calls as [|c rest IH]; intro self; simpl run.
  - left. reflexivity.
  - specialize (IH (after (call c) self)).
    destruct c as [t | bid ask].
    + rewrite after_call_transact in *.
      rewrite transact_keeps_price in IH. exact IH.
    + unfold call in *. simpl quotes.
      destruct (after_update_price_cases bid ask self)
        as [Hsame | (_ & p & Hp & Hafter)].
      * rewrite Hsame in IH |- *. destruct IH as [E | Hin].
        -- left. exact E.
        -- right. right. right. exact Hin.
      * rewrite Hafter in IH |- *. simpl current_price in IH.
        destruct IH as [E | Hin].
        -- right. destruct Hp as [Hb | Ha]; subst p.
           ++ left. exact E.
           ++ right. left. exact E.
        -- right. right. right. exact Hin.
Qed.

End AccountingFacts.

(** ** Concrete instances of the further properties *)



Lemma reducing_transaction_keeps_avg_cost_witness :
  avg_cost_per_share
    (after (transact_transaction Example.sell_4) Example.opened)
  = avg_cost_per_share Example.opened.
Proof.
  apply (reducing_transaction_keeps_avg_cost
           Example.sell_4 Example.opened (110 * -4 + 1)).
  - reflexivity.
  - vm_compute. discriminate.
  - vm_compute. discriminate.
Defined.

Lemma update_price_marks_by_direction_witness :
  current_price (after (update_price 105 106) Example.opened) = 105
  /\ current_price (after (update_price 2 3) Example.short_1) = 3.
Proof.
  assert (Hlong : transactions
                    (run [Transact Example.buy_10] (__init__ Example.ACME))
                  <> []) by (vm_compute; discriminate).
  assert (Hshort : transactions
                     (run [Transact Example.costly_sell]
                          (__init__ Example.ACME))
                   <> []) by (vm_compute; discriminate).
  split.
  - exact (proj1 (proj2 (update_price_marks_by_direction
                           Example.ACME [Transact Example.buy_10] 105 106
                           eq_refl Hlong))).
  - exact (proj1 (proj2 (update_price_marks_by_direction
                           Example.ACME [Transact Example.costly_sell] 2 3
                           eq_refl Hshort))).
Defined.

(** ** Properties of the volatility forecast *)

Module VolatilityFacts.

Import Volatility.

Section ForecastFacts.

Context `{Library}.

Lemma calculate_timeseries_cases (w : option nat) (m : Z)
      (self : VolatilityForecast) :
  (exists e, calculate_timeseries w m self = (self, inl e))
  \/ (exists v,
         forecasted_volatility self = None
         /\ calculate_timeseries w m self
            = (set_forecasted_volatility (Some v) self, inr v)).
Proof.
  unfold calculate_timeseries.
  destruct (forecasted_volatility self) eqn:E; [left; eauto|].
  destruct w; [|left; eauto].
  destruct (1 <=? m)%Z; [|left; eauto].
  destruct (rolling_window _ _ _) as [e | vol]; [left; eauto|].
  destruct (annualise self).
  - destruct (annualise_series _ _) as [e | vol']; [left; eauto|].
    right. eauto.
  - right. eauto.
Qed.

Lemma calculate_single_forecast_cases (m : Z) (self : VolatilityForecast) :
  (exists e, calculate_single_forecast m self = (self, inl e))
  \/ (exists v,
         forecasted_volatility self = None
         /\ calculate_single_forecast m self
            = (set_forecasted_volatility (Some v) self, inr v)).
Proof.
  unfold calculate_single_forecast.
  destruct (forecasted_volatility self) eqn:E; [left; eauto|].
  destruct (1 <=? m)%Z; [|left; eauto].
  destruct (_calculate_single_value _ _) as [e | vol]; [left; eauto|].
  destruct (annualise self).
  - destruct (annualise_scalar _ _) as [e | vol']; [left; eauto|].
    right. eauto.
  - right. eauto.
Qed.

Lemma calculate_cases (c : Calculation) (self : VolatilityForecast) :
  (exists e, calculate c self = (self, inl e))
  \/ (exists v,
         forecasted_volatility self = None
         /\ calculate c self
            = (set_forecasted_volatility (Some v) self, inr v)).
Proof.
  destruct c as [w m | m]; simpl.
  - apply calculate_timeseries_cases.
  - apply calculate_single_forecast_cases.
Qed.

Lemma calculate_again (c : Calculation) (self : VolatilityForecast)
      (v : Forecast) :
  forecasted_volatility self = Some v ->
  calculate c self = (self, inl AlreadyCalculated).
Proof.
  intro E. destruct c as [w m | m]; simpl;
    unfold calculate_timeseries, calculate_single_forecast;
    rewrite E; reflexivity.
Qed.

Lemma run_keeps_configuration (calls : list Calculation)
      (self : VolatilityForecast) :
  window_len (run calls self) = window_len self
  /\ returns_tms (run calls self) = returns_tms self
  /\ annualise (run calls self) = annualise self
  /\ frequency (run calls self) = frequency self
  /\ vol_process (run calls self) = vol_process self
  /\ method (run calls self) = method self
  /\ horizon (run calls self) = horizon self.
Proof.
  revert self. induction calls as [|c rest IH]; intro self; simpl.
  - repeat split.
  - destruct (calculate_cases c self) as [[e E] | (v & _ & E)];
      rewrite E; simpl.
    + apply IH.
    + apply (IH (set_forecasted_volatility (Some v) self)).
Qed.

(** X14.  Only one calculation is ever carried out on a
    [VolatilityForecast]: in any history of [calculate_timeseries] and
    [calculate_single_forecast] calls at most one call returns normally;
    [forecasted_volatility] is then the forecast that call returned, and
    it stays so.  On an object that already holds a forecast no call
    returns. *)
Theorem forecast_is_calculated_once
        (calls : list Calculation) (self : VolatilityForecast) :
  match forecasted_volatility self with
  | Some v =>
      returned calls self = []
      /\ forecasted_volatility (run calls self) = Some v
  | None =>
      (List.length (returned calls self) <= 1)%nat
      /\ forecasted_volatility (run calls self)
         = hd_error (returned calls self)
  end.
Proof.
  revert self. induction calls as [|c rest IH]; intro self.
  - simpl. destruct (forecasted_volatility self).
    + split; reflexivity.
    + split; [lia | reflexivity].
  - simpl. destruct (forecasted_volatility self) as [v0|] eqn:E.
    + rewrite (calculate_again c self v0 E). simpl.
      specialize (IH self). rewrite E in IH. exact IH.
    + destruct (calculate_cases c self) as [[e Hc] | (v & _ & Hc)];
        rewrite Hc; simpl.
      * specialize (IH self). rewrite E in IH. exact IH.
      * specialize (IH (set_forecasted_volatility (Some v) self)).
        simpl in IH. destruct IH as [Hnil Hfv].
        rewrite Hnil, Hfv. simpl. split; [lia | reflexivity].
Qed.

(** X15.  A calculation call changes nothing but
    [forecasted_volatility], and that only when it returns normally: a
    call that raises (an assertion of the class or an exception of the
    library) leaves the object exactly as it was, so the calculation can
    be tried again. *)
Theorem calculation_only_sets_forecast
        (c : Calculation) (self : VolatilityForecast) :
  fst (calculate c self)
  = match snd (calculate c self) with
    | inl _ => self
    | inr v => set_forecasted_volatility (Some v) self
    end.
Proof.
  destruct (calculate_cases c self) as [[e Hc] | (v & _ & Hc)];
    rewrite Hc; reflexivity.
Qed.

(** X16.  [self.window_len] is [None] on every object the constructor
    returns and no method assigns it.  [calculate_timeseries] checks that
    its [window_len] argument is given and then does not use it: whatever
    length is passed, the rolling window is computed with
    [self.window_len], that is with [None], and the outcome of the call
    does not depend on the length. *)
Theorem window_length_argument_is_ignored
        (returns : Series) (process : VolatilityProcess) (how : Method)
        (h : Z) (annualised : bool) (freq : option Frequency)
        (self : VolatilityForecast) (calls : list Calculation) (m : Z) :
  __init__ returns process how h annualised freq = inr self ->
  window_len (run calls self) = None
  /\ (forall w1 w2 : nat,
         calculate_timeseries (Some w1) m (run calls self)
         = calculate_timeseries (Some w2) m (run calls self))
  /\ (forall (w : nat) (v : Forecast),
         snd (calculate_timeseries (Some w) m (run calls self)) = inr v ->
         exists volatility_tms,
           rolling_window
             (times (returns_tms (run calls self)) m) None
             (_calculate_single_value (run calls self))
           = inr volatility_tms).
Proof.
  intro Hinit.
  assert (Hw : window_len self = None).
  { unfold __init__ in Hinit.
    destruct (negb annualised || _); [|discriminate].
    destruct (to_log_returns returns); [discriminate|].
    injection Hinit as <-. reflexivity. }
  destruct (run_keeps_configuration calls self) as [Hkeep _].
  rewrite Hw in Hkeep. split; [exact Hkeep|]. split.
  - intros w1 w2. reflexivity.
  - intros w v. unfold calculate_timeseries. rewrite Hkeep.
    destruct (forecasted_volatility (run calls self)); [discriminate|].
    destruct (1 <=? m)%Z; [|discriminate].
    destruct (rolling_window _ None _) as [e | vol]; [discriminate|].
    intros _. exists vol. reflexivity.
Qed.

End ForecastFacts.

(** On the small library: the constructor returns an object, and a
    timeseries calculation on it fails in the rolling window, whatever
    window length is passed. *)
Lemma window_length_argument_is_ignored_witness :
  window_len
    (run [CalculateSingleForecast 100]
         (mkForecast (H := toy_library) tt tt 1 None true (Some 252%Z)
                     [0.01; -0.02; 0.03] None))
  = None
  /\ calculate_timeseries (H := toy_library) (Some 2%nat) 100
       (mkForecast (H := toy_library) tt tt 1 None true (Some 252%Z)
                   [0.01; -0.02; 0.03] None)
     = calculate_timeseries (H := toy_library) (Some 3%nat) 100
         (mkForecast (H := toy_library) tt tt 1 None true (Some 252%Z)
                     [0.01; -0.02; 0.03] None).
Proof.
  assert (Hinit :
            __init__ (H := toy_library) [0.01; -0.02; 0.03] tt tt 1 true
                     (Some 252%Z)
            = inr (mkForecast (H := toy_library) tt tt 1 None true
                              (Some 252%Z) [0.01; -0.02; 0.03] None))
    by reflexivity.
  split.
  - exact (proj1 (window_length_argument_is_ignored
                    (H := toy_library) _ _ _ _ _ _ _
                    [CalculateSingleForecast 100] 100 Hinit)).
  - exact (proj1 (proj2 (window_length_argument_is_ignored
                           (H := toy_library) _ _ _ _ _ _ _
                           [] 100 Hinit)) 2%nat 3%nat).
Defined.

End VolatilityFacts.

(** ** Realized profit in floating point *)

Module FloatLedgerFacts.

Import PrimFloat FloatLedger.

#[local] Set Warnings "-inexact-float".

Section Facts.

Context {Contract : Type} `{EqDec Contract}.

Local Abbreviation Position := (@FloatLedger.BacktestPosition Contract).
Local Abbreviation Txn := (@FloatLedger.Transaction Contract).

Lemma float_transact_transaction_cases (t : Txn) (self : Position) :
  transact_transaction t self =
  if is_closed self then (self, inl InvalidStateError)
  else if (Z.abs (Z.sgn (number_of_shares self + quantity t)
                  - direction self) <? 2)%Z
  then
    if eq_dec (contract t) (_contract self)
    then
      if (quantity t =? 0)%Z then (self, inl InvalidTransactionError)
      else if (0 <? price t)%float
           then (record_transaction t self,
                 inr (_calculate_cost_of_transaction t))
           else (self, inl InvalidTransactionError)
    else (self, inl ContractMismatchError)
  else (self, inl DirectionViolationError).
Proof.
  unfold transact_transaction, _check_if_open,
    _check_if_direction_does_not_change, record_transaction,
    bind, get, assert_, when, modify, ret, raise.
  destruct (is_closed self) eqn:Hc; simpl; [reflexivity|].
  destruct (Z.abs _ <? 2)%Z; simpl; [|reflexivity].
  destruct (eq_dec (contract t) (_contract self)); simpl; [|reflexivity].
  destruct (quantity t =? 0)%Z; simpl; [reflexivity|].
  destruct (0 <? price t)%float; simpl; [|reflexivity].
  destruct (transactions self); simpl;
    destruct (_ =? 0)%Z; reflexivity.
Qed.

Lemma float_record_transactions (t : Txn) (self : Position) :
  transactions (record_transaction t self) = transactions self ++ [t].
Proof.
  unfold record_transaction.
  destruct (transactions self) eqn:E; simpl;
    destruct (_ =? 0)%Z; simpl; rewrite ?E; reflexivity.
Qed.

Lemma float_record_direction (t : Txn) (self : Position) :
  direction (record_transaction t self)
  = match transactions self with
    | [] => Z.sgn (quantity t)
    | _ :: _ => direction self
    end.
Proof.
  unfold record_transaction.
  destruct (transactions self); simpl;
    destruct (_ =? 0)%Z; reflexivity.
Qed.

Lemma well_formed_init (c : Contract) : well_formed (__init__ c).
Proof.
  split; simpl; [constructor | congruence].
Qed.

Lemma well_formed_transact (t : Txn) (self : Position) :
  well_formed self -> well_formed (fst (transact_transaction t self)).
Proof.
  intros [Hq Hd]. rewrite float_transact_transaction_cases.
  destruct (is_closed self); [split; assumption|].
  destruct (Z.abs _ <? 2)%Z; [|split; assumption].
  destruct (eq_dec (contract t) (_contract self)); [|split; assumption].
  destruct (quantity t =? 0)%Z eqn:Hz; [split; assumption|].
  destruct (0 <? price t)%float; [|split; assumption].
  apply Z.eqb_neq in Hz. simpl. split.
  - rewrite float_record_transactions. apply Forall_app. split; [exact Hq|].
    constructor; [exact Hz | constructor].
  - intros _. rewrite float_record_direction.
    destruct (transactions self) eqn:E.
    + destruct (quantity t); simpl; [congruence | left | right];
        reflexivity.
    + apply Hd. discriminate.
Qed.

Lemma well_formed_update_price (bid ask : float) (self : Position) :
  well_formed self -> well_formed (fst (update_price bid ask self)).
Proof.
  intro Hwf.
  unfold update_price, _check_if_open, bind, get, assert_, modify,
    ret, raise.
  destruct (is_closed self); simpl; [exact Hwf|].
  destruct (0 <? number_of_shares self)%Z; [exact Hwf|].
  destruct (number_of_shares self <? 0)%Z; exact Hwf.
Qed.

Lemma well_formed_run (calls : list Call) (self : Position) :
  well_formed self -> well_formed (run calls self).
Proof.
  revert self. induction calls as [|c rest IH]; intros self Hwf; simpl.
  - exact Hwf.
  - apply IH. destruct c as [t | bid ask]; simpl.
    + unfold bind, ret.
      pose proof (well_formed_transact t self Hwf) as Hstep.
      destruct (transact_transaction t self) as [s' [e | cash]];
        exact Hstep.
    + apply well_formed_update_price. exact Hwf.
Qed.

Lemma closing_selection (self : Position) (t : Txn) :
  well_formed self -> In t (transactions self) ->
  negb (Z.sgn (quantity t) =? direction self)%Z
  = (Z.sgn (quantity t) =? - direction self)%Z.
Proof.
  intros [Hq Hd] Hin.
  rewrite Forall_forall in Hq. pose proof (Hq t Hin) as Hnz.
  assert (Hne : transactions self <> []).
  { intro E. rewrite E in Hin. exact Hin. }
  destruct (Hd Hne) as [D | D]; rewrite D;
    destruct (quantity t); simpl; congruence.
Qed.

Lemma fold_left_selected {A T : Type} (f : T -> bool) (g : A -> T -> A)
      (l : list T) (a : A) :
  fold_left (fun acc t => if f t then g acc t else acc) l a
  = fold_left g (filter f l) a.
Proof.
  revert a. induction l as [|x l IH]; intro a; simpl.
  - reflexivity.
  - destruct (f x); simpl; apply IH.
Qed.

Lemma realized_pnl_refines (self : Position) :
  well_formed self -> realized_pnl self = realized_pnl_spec self.
Proof.
  intro Hwf. unfold realized_pnl, realized_pnl_spec, closing_transactions.
  cbv zeta.
  rewrite (fold_left_selected
             (fun t : Txn =>
                negb (Z.sgn (quantity t) =? direction self)%Z)
             (fun (pnl : float) (t : Txn) =>
                (pnl + ((price t - avg_cost_per_share self)
                        * float_of_int (- quantity t)
                        - commission t))%float)).
  rewrite (filter_ext_in
             (fun t : Txn =>
                negb (Z.sgn (quantity t) =? direction self)%Z)
             (fun t : Txn => (Z.sgn (quantity t) =? - direction self)%Z)).
  - reflexivity.
  - intros t Hin. apply closing_selection; assumption.
Qed.

End Facts.

(** C6, as amended.  After any history of calls on a fresh position,
    [realized_pnl()] is the sum, added up in floating point from 0.0 in
    the order of the log, over exactly the recorded transactions whose
    quantity has the sign opposite to the direction, of
    [(price - avg_cost_per_share()) * (-quantity) - commission].  In the
    example (10 shares bought at 100 with commission 1, then 4 sold at
    110 with commission 1) [avg_cost_per_share()] is 100.1, the only
    closing transaction is the sale, [realized_pnl()] is
    [(110 - 100.1) * 4 - 1] as binary64 arithmetic evaluates it, which is
    38.60000000000002, and the position is still open with 6 shares. *)
Theorem realized_pnl_accumulates_closing_transactions :
  (forall (Contract : Type) (E : EqDec Contract) (c : Contract)
          (calls : list Call),
      realized_pnl (run calls (__init__ c))
      = realized_pnl_spec (run calls (__init__ c)))
  /\ closing_transactions reduced = [sell_4]
  /\ avg_cost_per_share reduced = 100.1%float
  /\ realized_pnl reduced = ((110 - 100.1) * 4 - 1)%float
  /\ realized_pnl reduced = 38.60000000000002%float
  /\ number_of_shares reduced = 6%Z
  /\ is_closed reduced = false.
Proof.
  split.
  - intros Contract E c calls. apply realized_pnl_refines.
    apply well_formed_run, well_formed_init.
  - repeat split; vm_compute; reflexivity.
Qed.

(** C6: in the example the value that [realized_pnl()] returns is not
    the float 38.6. *)
Lemma realized_pnl_example_is_not_exact :
  realized_pnl reduced <> 38.6%float.
Proof.
  intro E.
  assert (A : (realized_pnl reduced =? 38.6)%float = true).
  { rewrite E. vm_compute. reflexivity. }
  vm_compute in A. discriminate.
Qed.

End FloatLedgerFacts.
